(** * Resume analyzer (app.py): a shallow embedding and its properties

    The development follows the layout of [app.py]:

    - Python strings and the three string operations the program uses
      ([str.lower], the [in] test on strings, [str.rsplit] with one split);
    - the float arithmetic of the match percentage, on binary64 numbers;
    - the external calls (PDF and DOCX parsers, the generative model, the
      upload's [save]) as oracles of a [World], run in a monad that records
      every call and carries Python exceptions;
    - the functions of the program, in the order of the source file;
    - the properties.

    A Python [str] is a Rocq [string], one [ascii] per character.  All the
    literals of the program are ASCII; [lower] folds the letters A-Z and
    leaves every other character as it is, which is what [str.lower] does
    on ASCII text: the properties below are about such text. *)

From Stdlib Require Import Bool Arith ZArith List String Ascii Lia.
From Stdlib Require Import Permutation.
From Stdlib Require Import Floats Uint63.
Import ListNotations.

Local Open Scope list_scope.
Local Open Scope string_scope.

(* Decimal literals such as 18.18 stand for the nearest binary64 number. *)
Set Warnings "-inexact-float".

(** ** Python strings *)

Module Str.

(** [c.lower()] for one character: 'A'..'Z' (65..90) move up by 32. *)
Definition lower_char (c : ascii) : ascii :=
  let n := nat_of_ascii c in
  if (65 <=? n)%nat && (n <=? 90)%nat then ascii_of_nat (n + 32) else c.

(** [s.lower()] *)
Fixpoint lower (s : string) : string :=
  match s with
  | EmptyString => EmptyString
  | String c t => String (lower_char c) (lower t)
  end.

(** [s.startswith(p)] *)
Fixpoint startswith (p s : string) : bool :=
  match p, s with
  | EmptyString, _ => true
  | String _ _, EmptyString => false
  | String a p', String b s' => Ascii.eqb a b && startswith p' s'
  end.

(** [sub in s]: [sub] starts at some position of [s]. *)
Fixpoint contains (sub s : string) : bool :=
  startswith sub s ||
  match s with
  | EmptyString => false
  | String _ t => contains sub t
  end.

(** [s.rsplit(sep, 1)] for a one-character separator, as an option: the
    text before the last [sep] and the text after it, [None] when [s] has
    no [sep]. *)
Fixpoint rsplit_last (sep : ascii) (s : string) : option (string * string) :=
  match s with
  | EmptyString => None
  | String c t =>
      match rsplit_last sep t with
      | Some (pre, suf) => Some (String c pre, suf)
      | None => if Ascii.eqb c sep then Some (EmptyString, t) else None
      end
  end.

(** [s.rsplit(sep, 1)]: a list of one or two strings. *)
Definition rsplit1 (sep : ascii) (s : string) : list string :=
  match rsplit_last sep s with
  | Some (pre, suf) => [pre; suf]
  | None => [s]
  end.

(** [l[-1]] on a list of strings; Python raises IndexError on the empty
    list, which [rsplit] never returns. *)
Definition item_last (l : list string) : option string :=
  match l with
  | [] => None
  | x :: r => Some (last r x)
  end.

(** [sep.join(l)] *)
Definition join (sep : string) (l : list string) : string := String.concat sep l.

(** [c] occurs in [s]. *)
Fixpoint has_char (c : ascii) (s : string) : bool :=
  match s with
  | EmptyString => false
  | String a t => Ascii.eqb a c || has_char c t
  end.

End Str.

(** ** Python floats

    A Python [float] is a binary64 number: Rocq's primitive [float], with
    the same correctly rounded operations. *)

Module PyFloat.

(** [float(n)] for an [int]; exact below 2^53. *)
Definition of_int (n : Z) : float := PrimFloat.of_uint63 (Uint63.of_Z n).

(** Nearest integer to [n / d] for [0 < d], ties to the even one. *)
Definition round_half_even (n d : Z) : Z :=
  let q := (n / d)%Z in
  let r := (n mod d)%Z in
  if (2 * r <? d)%Z then q
  else if (d <? 2 * r)%Z then (q + 1)%Z
  else if Z.even q then q else (q + 1)%Z.

(** The binary64 number nearest to the decimal [h / 100]: the float that
    Python reads and prints as that number of hundredths. *)
Definition of_hundredths (h : Z) : float := (of_int h / 100)%float.

(** [round(x, 2)].  CPython writes the exact value of [x] as a decimal
    with two digits after the point, correctly rounded (ties to even),
    and reads that decimal back as the nearest float.  Zeros, infinities
    and NaN round to themselves, and so do the floats with a non-negative
    exponent, which are integers.  The number of hundredths is converted
    exactly for [|x| < 2^46]. *)
Definition round2 (x : float) : float :=
  match Prim2SF x with
  | S754_finite s m e =>
      if (0 <=? e)%Z then x
      else
        let h := round_half_even (Z.pos m * 100) (2 ^ (- e)) in
        if s then (- of_hundredths h)%float else of_hundredths h
  | _ => x
  end.

End PyFloat.

(** ** Exceptions, external calls and the monad of the program *)

(** A raised Python exception, an instance of [Exception]; [str(e)] is
    its message. *)
Inductive exn : Type := Exn (msg : string).

Definition str_of_exn (e : exn) : string := let 'Exn msg := e in msg.

(** How a call ends: it returns a value or raises. *)
Inductive result (A : Type) : Type :=
| Ok (a : A)
| Raised (e : exn).
Arguments Ok {A} a.
Arguments Raised {A} e.

(** The calls that leave the program, in the order they are made. *)
Inductive event : Type :=
| FileSave (path : string)                 (* file.save(filepath) *)
| PdfExtractText (path : string)           (* pdfminer.high_level.extract_text *)
| DocxDocument (path : string)             (* docx.Document *)
| GenerateContent (model prompt : string). (* genai ... generate_content *)

(** [M A]: a computation that extends the log of external calls and
    returns an [A] or raises. *)
Definition M (A : Type) : Type := list event -> result A * list event.

Definition ret {A} (a : A) : M A := fun log => (Ok a, log).

Definition raise {A} (e : exn) : M A := fun log => (Raised e, log).

Definition bind {A B} (c : M A) (k : A -> M B) : M B :=
  fun log =>
    match c log with
    | (Ok a, log') => k a log'
    | (Raised e, log') => (Raised e, log')
    end.

(** [try: body  except Exception as e: handler(e)] *)
Definition try_except {A} (body : M A) (handler : exn -> M A) : M A :=
  fun log =>
    match body log with
    | (Ok a, log') => (Ok a, log')
    | (Raised e, log') => handler e log'
    end.

(** An external call: logged, then it ends as the world decides. *)
Definition call {A} (ev : event) (r : result A) : M A :=
  fun log => (r, (log ++ [ev])%list).

Declare Scope py_scope.
Delimit Scope py_scope with py.
Notation "x <- c ;; k" := (bind c (fun x => k))
  (at level 100, c at next level, right associativity) : py_scope.
Notation "c ;; k" := (bind c (fun _ => k))
  (at level 100, right associativity) : py_scope.
Local Open Scope py_scope.

(** The result of the analysis: the dict returned by [analyze_resume]. *)
Record AnalysisResult : Type := {
  skills_matched : list string;
  missing_skills : list string;
  match_percentage : float;
  recommendations : list string;
  ai_suggestions : string
}.

(** What lies outside the program during one request. *)
Record World : Type := {
  (** [str(uuid.uuid4())] *)
  uuid4 : string;
  (** [file.save(path)] of the uploaded file *)
  file_save : string -> result unit;
  (** [pdfminer.high_level.extract_text(path)] *)
  pdfminer_extract_text : string -> result string;
  (** [docx.Document(path)], as the texts of its paragraphs *)
  docx_paragraphs : string -> result (list string);
  (** [genai.GenerativeModel(model).generate_content(prompt).text] *)
  generate_content_text : string -> string -> result string;
  (** [render_template_string(template, data=data)] for the template of
      [json_to_html] *)
  render_template_string : AnalysisResult -> string
}.

(** An uploaded file and the request that carries it. *)
Record FileStorage : Type := {
  filename : string;
  stream : string
}.

(** [request.files] is a multi-dict: pairs of field name and file, in the
    order of the form. *)
Record Request : Type := {
  files : list (string * FileStorage)
}.

(** [key in request.files] *)
Definition files_contains (key : string) (fs : list (string * FileStorage)) : bool :=
  existsb (fun kv => String.eqb (fst kv) key) fs.

(** [request.files[key]]: the first file of that name; KeyError when
    there is none. *)
Definition files_getitem (key : string) (fs : list (string * FileStorage)) : M FileStorage :=
  match find (fun kv => String.eqb (fst kv) key) fs with
  | Some kv => ret (snd kv)
  | None => raise (Exn key)
  end.

(** [l[-1]] *)
Definition getitem_last (l : list string) : M string :=
  match Str.item_last l with
  | Some x => ret x
  | None => raise (Exn "list index out of range")
  end.

(** [a / b] on [int]s. *)
Definition int_truediv (a b : nat) : M float :=
  if (b =? 0)%nat then raise (Exn "division by zero")
  else ret (PyFloat.of_int (Z.of_nat a) / PyFloat.of_int (Z.of_nat b))%float.

(** [os.path.join(a, b)] on POSIX. *)
Definition os_path_join (a b : string) : string :=
  if Str.startswith "/" b then b
  else if String.eqb a "" || Str.startswith "/" (String.substring (String.length a - 1) 1 a)
       then a ++ b
       else a ++ "/" ++ b.

(** What a view function returns, and the response Flask makes of it. *)
Inductive view_value : Type :=
| WithStatus (json : list (string * string)) (code : Z)  (* jsonify(d), code *)
| Text (s : string).                                      (* a str *)

Inductive body : Type :=
| Json (fields : list (string * string))
| Html (doc : string).

Record response : Type := {
  status : Z;
  payload : body
}.

(** A [str] becomes a 200 text/html response; a pair keeps its status. *)
Definition make_response (v : view_value) : response :=
  match v with
  | WithStatus j code => {| status := code; payload := Json j |}
  | Text s => {| status := 200; payload := Html s |}
  end.

(** ** The program *)

Definition newline : string := String "010"%char "".

Definition REQUIRED_SKILLS : list string :=
  [ "Python"; "JavaScript"; "Machine Learning"; "Flask"; "React"; "SQL";
    "Data Science"; "HTML"; "CSS"; "NLP"; "AI" ].

(** *** File processing *)

Definition extract_text_from_pdf (w : World) (pdf_path : string) : M string :=
  try_except
    (call (PdfExtractText pdf_path) (pdfminer_extract_text w pdf_path))
    (fun e => ret ("Error extracting text from PDF: " ++ str_of_exn e)).

Definition extract_text_from_docx (w : World) (docx_path : string) : M string :=
  try_except
    (paragraphs <- call (DocxDocument docx_path) (docx_paragraphs w docx_path) ;;
     ret (Str.join newline paragraphs))
    (fun e => ret ("Error extracting text from DOCX: " ++ str_of_exn e)).

(** *** Gemini API integration *)

(** The f-string sent to the model: the instruction, a newline, the text. *)
Definition suggestion_prompt (text : string) : string :=
  "Suggest improvements for this resume in 5-10 points keep it pointise and dont use bold:"
  ++ newline ++ text.

Definition get_resume_suggestions (w : World) (text : string) : M string :=
  try_except
    (let model := "gemini-2.0-flash" in
     let prompt := suggestion_prompt text in
     call (GenerateContent model prompt) (generate_content_text w model prompt))
    (fun e => ret ("AI Error: " ++ str_of_exn e)).

(** *** Resume analysis *)

Definition ADVICE_PROJECTS : string :=
  "Consider adding a Projects section with real-world applications.".
Definition ADVICE_EXPERIENCE : string :=
  "Mention work experience or internships to strengthen your resume.".
Definition ADVICE_EDUCATION : string :=
  "Include your educational background.".
Definition ADVICE_CERTIFICATION : string :=
  "Adding certifications can improve credibility.".

(** [recommendations.append(x)] when [cond], on the list so far. *)
Definition append_if (cond : bool) (x : string) (l : list string) : list string :=
  if cond then (l ++ [x])%list else l.

Definition analyze_resume (w : World) (text : string) : M AnalysisResult :=
  let found_skills :=
    filter (fun skill => Str.contains (Str.lower skill) (Str.lower text)) REQUIRED_SKILLS in
  let missing_skills :=
    filter (fun skill => negb (Str.contains (Str.lower skill) (Str.lower text))) REQUIRED_SKILLS in
  ratio <- int_truediv (List.length found_skills) (List.length REQUIRED_SKILLS) ;;
  let percentage := (ratio * 100)%float in
  let recommendations := [] in
  let recommendations :=
    append_if (negb (Str.contains "projects" (Str.lower text)))
      ADVICE_PROJECTS recommendations in
  let recommendations :=
    append_if (negb (Str.contains "experience" (Str.lower text)))
      ADVICE_EXPERIENCE recommendations in
  let recommendations :=
    append_if (negb (Str.contains "education" (Str.lower text)))
      ADVICE_EDUCATION recommendations in
  let recommendations :=
    append_if (negb (Str.contains "certification" (Str.lower text)))
      ADVICE_CERTIFICATION recommendations in
  ai_suggestions <- get_resume_suggestions w text ;;
  ret {| skills_matched := found_skills;
         missing_skills := missing_skills;
         match_percentage := PyFloat.round2 percentage;
         recommendations := recommendations;
         ai_suggestions := ai_suggestions |}.

(** *** HTML rendering *)

Definition json_to_html (w : World) (data : AnalysisResult) : string :=
  render_template_string w data.

(** *** The route [/analyze] *)

(** Line 212: [file.filename.rsplit('.', 1)[-1].lower()] *)
Definition extension (name : string) : M string :=
  part <- getitem_last (Str.rsplit1 "."%char name) ;;
  ret (Str.lower part).

(** Line 217: the extractor is chosen by the extension. *)
Definition extract_text (w : World) (ext filepath : string) : M string :=
  if String.eqb ext "pdf" then extract_text_from_pdf w filepath
  else extract_text_from_docx w filepath.

Definition analyze (w : World) (request : Request) : M view_value :=
  if negb (files_contains "resume" (files request)) then
    ret (WithStatus [("error", "No file uploaded")] 400)
  else
    file <- files_getitem "resume" (files request) ;;
    ext <- extension (filename file) ;;
    let filename := uuid4 w ++ "." ++ ext in
    let filepath := os_path_join "temp" filename in
    call (FileSave filepath) (file_save w filepath) ;;
    text <- extract_text w ext filepath ;;
    result <- analyze_resume w text ;;
    ret (Text (json_to_html w result)).

(** ** The functions in closed form

    What each function of the program hands back, as a function of the
    world; the run lemmas below relate them to the program. *)

(** What [extract_text_from_pdf] hands back for a path. *)
Definition pdf_text_or_error (w : World) (path : string) : string :=
  match pdfminer_extract_text w path with
  | Ok text => text
  | Raised e => "Error extracting text from PDF: " ++ str_of_exn e
  end.

(** What [extract_text_from_docx] hands back for a path. *)
Definition docx_text_or_error (w : World) (path : string) : string :=
  match docx_paragraphs w path with
  | Ok paragraphs => Str.join newline paragraphs
  | Raised e => "Error extracting text from DOCX: " ++ str_of_exn e
  end.

(** What [get_resume_suggestions] hands back for a text. *)
Definition suggestions_or_error (w : World) (text : string) : string :=
  match generate_content_text w "gemini-2.0-flash" (suggestion_prompt text) with
  | Ok answer => answer
  | Raised e => "AI Error: " ++ str_of_exn e
  end.

(** The four advisory checks of [analyze_resume], one after the other. *)
Definition advisories (text : string) : list string :=
  append_if (negb (Str.contains "certification" (Str.lower text))) ADVICE_CERTIFICATION
    (append_if (negb (Str.contains "education" (Str.lower text))) ADVICE_EDUCATION
       (append_if (negb (Str.contains "experience" (Str.lower text))) ADVICE_EXPERIENCE
          (append_if (negb (Str.contains "projects" (Str.lower text))) ADVICE_PROJECTS []))).

(** The float that [analyze_resume] rounds, for [k] skills found. *)
Definition percentage_of (k : nat) : float :=
  (PyFloat.of_int (Z.of_nat k) / PyFloat.of_int (Z.of_nat (List.length REQUIRED_SKILLS)) * 100)%float.

(** ** Vocabulary of the properties *)

(** [kw] occurs in [text], whatever the case of the letters. *)
Definition occurs_ci (kw text : string) : bool :=
  Str.contains (Str.lower kw) (Str.lower text).

(** Number of elements of [l] that satisfy [p]. *)
Fixpoint count_if {A : Type} (p : A -> bool) (l : list A) : nat :=
  match l with
  | [] => 0
  | x :: r => (if p x then 1 else 0) + count_if p r
  end.

(** [l1] lists some elements of [l2], in the order of [l2]. *)
Inductive Subseq {A : Type} : list A -> list A -> Prop :=
| Subseq_nil : Subseq [] []
| Subseq_skip x l1 l2 : Subseq l1 l2 -> Subseq l1 (x :: l2)
| Subseq_keep x l1 l2 : Subseq l1 l2 -> Subseq (x :: l1) (x :: l2).

#[local] Hint Constructors Subseq : core.

(** ** Vocabulary of the route *)

(** The file that [request.files['resume']] yields, if any. *)
Definition upload_of (request : Request) : option FileStorage :=
  option_map snd (find (fun kv => String.eqb (fst kv) "resume") (files request)).

(** The extension the route derives from a filename. *)
Definition extension_of (name : string) : string :=
  Str.lower
    match Str.rsplit_last "."%char name with
    | Some (_, suf) => suf
    | None => name
    end.

(** The path the route saves an upload under. *)
Definition saved_path (w : World) (name : string) : string :=
  os_path_join "temp" (uuid4 w ++ "." ++ extension_of name).

(** The extraction call and the text that the route obtains for an
    extension and a path. *)
Definition extraction_event (ext path : string) : event :=
  if String.eqb ext "pdf" then PdfExtractText path else DocxDocument path.

Definition extracted_text (w : World) (ext path : string) : string :=
  if String.eqb ext "pdf" then pdf_text_or_error w path else docx_text_or_error w path.

(** Two worlds to run the program in: one where every call succeeds, one
    where the disk is full. *)
Definition world_ok : World := {|
  uuid4 := "3f2b8c1e-5d4a-4e6f-9a7b-0c1d2e3f4a5b";
  file_save := fun _ => Ok tt;
  pdfminer_extract_text := fun _ => Ok "Python SQL education";
  docx_paragraphs := fun _ => Ok ["Maintained servers"; "Education"];
  generate_content_text := fun _ _ => Ok "* Add a projects section";
  render_template_string := fun r => "<!DOCTYPE html>" ++ Str.join ", " (skills_matched r)
|}.

Definition world_disk_full : World := {|
  uuid4 := "3f2b8c1e-5d4a-4e6f-9a7b-0c1d2e3f4a5b";
  file_save := fun _ => Raised (Exn "[Errno 28] No space left on device");
  pdfminer_extract_text := fun _ => Ok "Python SQL education";
  docx_paragraphs := fun _ => Ok ["Maintained servers"; "Education"];
  generate_content_text := fun _ _ => Ok "* Add a projects section";
  render_template_string := fun r => "<!DOCTYPE html>" ++ Str.join ", " (skills_matched r)
|}.

Definition upload (name : string) : Request :=
  {| files := [("resume", {| filename := name; stream := "%PDF-1.4" |})] |}.

(** ** The markup of the AI text in the report

    Line 193 of the template of [json_to_html]:
    [data['ai_suggestions'].replace('*', '&#8226;').replace('\n', '<br>')|safe] *)

Module Markup.

(** [s.replace(old, new)] for a one-character [old]. *)
Fixpoint replace_char (old : ascii) (new : string) (s : string) : string :=
  match s with
  | EmptyString => EmptyString
  | String c t =>
      if Ascii.eqb c old then new ++ replace_char old new t
      else String c (replace_char old new t)
  end.

(** [s.count(c)] for a one-character [c]. *)
Fixpoint count_char (c : ascii) (s : string) : nat :=
  match s with
  | EmptyString => 0
  | String a t => (if Ascii.eqb a c then 1 else 0) + count_char c t
  end.

Definition BULLET : string := "&#8226;".
Definition BR : string := "<br>".

(** The expression of line 193; the filter [safe] switches escaping off,
    so this string goes into the page as it is. *)
Definition suggestions_markup (ai_suggestions : string) : string :=
  replace_char "010"%char BR (replace_char "*"%char BULLET ai_suggestions).

End Markup.

(** ** The email report

    [send_email] reads the two mail settings of [app.config], prints to
    the console and hands a message to [mail.send]. *)

Module Mail.

(** [app.config['MAIL_USERNAME']] and [app.config['MAIL_PASSWORD']]:
    [os.getenv] gives [None] or a [str]. *)
Record Config : Type := {
  MAIL_USERNAME : option string;
  MAIL_PASSWORD : option string
}.

(** [not x] for [None] or a [str]: true for [None] and for the empty
    string. *)
Definition py_not (x : option string) : bool :=
  match x with
  | None => true
  | Some s => String.eqb s ""
  end.

(** A [flask_mail.Message]. *)
Record Message : Type := {
  subject : string;
  sender : option string;
  recipients : list string;
  msg_body : string
}.

(** What leaves the function: a line on the console, a message to the
    transport. *)
Inductive output : Type :=
| Printed (line : string)
| Sent (msg : Message).

(** The mail transport and the formatting of a float in an f-string. *)
Record Env : Type := {
  mail_send : Message -> result unit;
  format_float : float -> string
}.

(** Lines 29-30: the warning at start-up. *)
Definition startup_warning (cfg : Config) : list output :=
  if py_not (MAIL_USERNAME cfg) || py_not (MAIL_PASSWORD cfg)
  then [Printed "Warning: Email credentials not set. Email functionality may not work."]
  else [].

(** The f-string of [msg.body], with the indentation of the source. *)
Definition report_body (env : Env) (analysis : AnalysisResult) : string :=
  newline ++ "    Skills Matched: " ++ Str.join ", " (skills_matched analysis) ++
  newline ++ "    Missing Skills: " ++ Str.join ", " (missing_skills analysis) ++
  newline ++ "    Match Percentage: " ++ format_float env (match_percentage analysis) ++ "%" ++
  newline ++ "    Recommendations: " ++ Str.join ", " (recommendations analysis) ++
  newline ++ "    AI Suggestions: " ++ ai_suggestions analysis ++
  newline ++ "    ".

Definition send_email (cfg : Config) (env : Env) (recipient : string)
  (analysis : AnalysisResult) (out : list output) : result unit * list output :=
  if py_not (MAIL_USERNAME cfg) || py_not (MAIL_PASSWORD cfg) then
    (Ok tt,
     (out ++ [Printed "Error: Email configuration missing. Cannot send email."])%list)
  else
    let msg := {| subject := "Your Resume Analysis Report";
                  sender := MAIL_USERNAME cfg;
                  recipients := [recipient];
                  msg_body := report_body env analysis |} in
    (mail_send env msg, (out ++ [Sent msg])%list).

(** The messages handed to the transport, in order. *)
Definition sent_messages (out : list output) : list Message :=
  flat_map (fun o => match o with Sent m => [m] | Printed _ => [] end) out.

End Mail.

(** The dict that [analyze_resume] returns for a text, in closed form. *)
Definition analysis_of (w : World) (text : string) : AnalysisResult :=
  {| skills_matched :=
       filter (fun skill => Str.contains (Str.lower skill) (Str.lower text)) REQUIRED_SKILLS;
     missing_skills :=
       filter (fun skill => negb (Str.contains (Str.lower skill) (Str.lower text)))
         REQUIRED_SKILLS;
     match_percentage :=
       PyFloat.round2
         (percentage_of
            (List.length
               (filter (fun skill => Str.contains (Str.lower skill) (Str.lower text))
                  REQUIRED_SKILLS)));
     recommendations := advisories text;
     ai_suggestions := suggestions_or_error w text |}.

(** ** More worlds to run the program in *)

(** A DOCX file of three empty paragraphs. *)
Definition world_blank_docx : World := {|
  uuid4 := "3f2b8c1e-5d4a-4e6f-9a7b-0c1d2e3f4a5b";
  file_save := fun _ => Ok tt;
  pdfminer_extract_text := fun _ => Ok "Python SQL education";
  docx_paragraphs := fun _ => Ok [""; ""; ""];
  generate_content_text := fun _ _ => Ok "* Add a projects section";
  render_template_string := fun r => "<!DOCTYPE html>" ++ Str.join ", " (skills_matched r)
|}.

(** The file is saved, then the PDF parser and the model both raise. *)
Definition world_parser_and_model_fail : World := {|
  uuid4 := "3f2b8c1e-5d4a-4e6f-9a7b-0c1d2e3f4a5b";
  file_save := fun _ => Ok tt;
  pdfminer_extract_text := fun _ => Raised (Exn "No /Root object! - Is this really a PDF?");
  docx_paragraphs := fun _ => Raised (Exn "Package not found");
  generate_content_text := fun _ _ => Raised (Exn "429 quota exceeded");
  render_template_string := fun r => "<!DOCTYPE html>" ++ ai_suggestions r
|}.

(** Mail settings and a transport for the email report. *)
Definition mail_unset : Mail.Config :=
  {| Mail.MAIL_USERNAME := Some "reports@example.org"; Mail.MAIL_PASSWORD := None |}.

Definition mail_set : Mail.Config :=
  {| Mail.MAIL_USERNAME := Some "reports@example.org";
     Mail.MAIL_PASSWORD := Some "app-password" |}.

Definition mail_env_down : Mail.Env :=
  {| Mail.mail_send := fun _ => Raised (Exn "Connection refused");
     Mail.format_float := fun _ => "18.18" |}.

Definition report_example : AnalysisResult :=
  {| skills_matched := ["Python"; "SQL"];
     missing_skills := ["JavaScript"; "Machine Learning"; "Flask"; "React";
                        "Data Science"; "HTML"; "CSS"; "NLP"; "AI"];
     match_percentage := 18.18%float;
     recommendations := [ADVICE_PROJECTS];
     ai_suggestions := "* Add a projects section" |}.

(** ** The strings the analyzer looks for *)

(** The lowercased skills and the four section keywords. *)
Definition KEYWORDS : list string :=
  (map Str.lower REQUIRED_SKILLS
   ++ ["projects"; "experience"; "education"; "certification"])%list.

(** * Facts *)

(** ** Facts on strings *)

Section StrFacts.

Import Str.

Lemma startswith_iff (p s : string) :
  startswith p s = true <-> exists r, s = p ++ r.
Proof.
  revert s; induction p as [|a p IH]; intros s; simpl.
  - split; [intros _; now exists s | reflexivity].
  - destruct s as [|b s].
    + split; [discriminate | intros [r Hr]; discriminate].
    + rewrite andb_true_iff, Ascii.eqb_eq, IH. split.
      * intros [-> [r ->]]. now exists r.
      * intros [r Hr]. injection Hr as -> ->. split; [reflexivity | now exists r].
Qed.

(** [contains] is the substring relation. *)
Lemma contains_iff (sub s : string) :
  contains sub s = true <-> exists l r, s = l ++ sub ++ r.
Proof.
  induction s as [|b s IH].
  - simpl. rewrite orb_false_r, startswith_iff. split.
    + intros [r Hr]. now exists "", r.
    + intros [l [r Hr]]. destruct l; [now exists r | discriminate].
  - cbn [contains]. rewrite orb_true_iff, startswith_iff, IH. split.
    + intros [[r Hr] | [l [r Hr]]].
      * now exists "", r.
      * exists (String b l), r. now rewrite Hr.
    + intros [l [r Hr]]. destruct l as [|x l].
      * left. now exists r.
      * right. injection Hr as _ Hr. now exists l, r.
Qed.



(** Without the separator there is nothing to split. *)
Lemma rsplit_last_none (sep : ascii) (s : string) :
  has_char sep s = false -> rsplit_last sep s = None.
Proof.
  induction s as [|c s IH]; simpl; [reflexivity|].
  rewrite orb_false_iff. intros [Hc Hs].
  now rewrite (IH Hs), Hc.
Qed.

(** The split is at the last separator. *)
Lemma rsplit_last_some (sep : ascii) (pre suf : string) :
  has_char sep suf = false ->
  rsplit_last sep (pre ++ String sep suf) = Some (pre, suf).
Proof.
  intros Hsuf. induction pre as [|c pre IH]; simpl.
  - now rewrite (rsplit_last_none _ _ Hsuf), Ascii.eqb_refl.
  - now rewrite IH.
Qed.


End StrFacts.

Section ListFacts.

Context {A : Type}.
Variable p : A -> bool.

Lemma length_filter_count (l : list A) : List.length (filter p l) = count_if p l.
Proof.
  induction l as [|x l IH]; simpl; [reflexivity|].
  destruct (p x); simpl; now rewrite IH.
Qed.

Lemma count_if_le (l : list A) : count_if p l <= List.length l.
Proof.
  induction l as [|x l IH]; simpl; [lia|]. destruct (p x); lia.
Qed.

Lemma filter_Subseq (l : list A) : Subseq (filter p l) l.
Proof.
  induction l as [|x l IH]; simpl; [constructor|].
  destruct (p x); auto.
Qed.

Lemma filter_split_Permutation (l : list A) :
  Permutation (filter p l ++ filter (fun x => negb (p x)) l)%list l.
Proof.
  induction l as [|x l IH]; simpl; [constructor|].
  destruct (p x); simpl.
  - now constructor.
  - now apply Permutation_sym, Permutation_cons_app, Permutation_sym.
Qed.

Lemma filter_split_disjoint (l : list A) (x : A) :
  In x (filter p l) -> ~ In x (filter (fun x => negb (p x)) l).
Proof.
  rewrite !filter_In. intros [_ H] [_ H']. rewrite H in H'. discriminate.
Qed.

End ListFacts.

(** ** Runs of the program

    Each function of the program, run from any log. *)

Section Runs.

Variable w : World.

Lemma extract_text_from_pdf_run (path : string) (log : list event) :
  extract_text_from_pdf w path log =
  (Ok (pdf_text_or_error w path), (log ++ [PdfExtractText path])%list).
Proof.
  unfold extract_text_from_pdf, try_except, call, ret, pdf_text_or_error.
  now destruct (pdfminer_extract_text w path).
Qed.

Lemma extract_text_from_docx_run (path : string) (log : list event) :
  extract_text_from_docx w path log =
  (Ok (docx_text_or_error w path), (log ++ [DocxDocument path])%list).
Proof.
  unfold extract_text_from_docx, try_except, bind, call, ret, docx_text_or_error.
  now destruct (docx_paragraphs w path).
Qed.

Lemma get_resume_suggestions_run (text : string) (log : list event) :
  get_resume_suggestions w text log =
  (Ok (suggestions_or_error w text),
   (log ++ [GenerateContent "gemini-2.0-flash" (suggestion_prompt text)])%list).
Proof.
  unfold get_resume_suggestions, try_except, call, ret, suggestions_or_error.
  now destruct (generate_content_text w _ _).
Qed.

Lemma analyze_resume_run (text : string) (log : list event) :
  analyze_resume w text log =
  (Ok {| skills_matched :=
           filter (fun skill => Str.contains (Str.lower skill) (Str.lower text))
             REQUIRED_SKILLS;
         missing_skills :=
           filter (fun skill => negb (Str.contains (Str.lower skill) (Str.lower text)))
             REQUIRED_SKILLS;
         match_percentage :=
           PyFloat.round2
             (percentage_of
                (List.length
                   (filter (fun skill => Str.contains (Str.lower skill) (Str.lower text))
                      REQUIRED_SKILLS)));
         recommendations := advisories text;
         ai_suggestions := suggestions_or_error w text |},
   (log ++ [GenerateContent "gemini-2.0-flash" (suggestion_prompt text)])%list).
Proof.
  unfold analyze_resume, bind, int_truediv.
  change (List.length REQUIRED_SKILLS =? 0)%nat with false. cbv iota.
  unfold ret at 1. rewrite get_resume_suggestions_run. reflexivity.
Qed.

End Runs.

(** ** The match percentage on the twelve possible counts *)

Lemma percentage_rounding (k : nat) :
  k <= 11 ->
  PyFloat.round2 (percentage_of k) =
  PyFloat.of_hundredths (PyFloat.round_half_even (100 * Z.of_nat k * 100) 11).
Proof.
  intros H.
  do 12 (destruct k as [|k]; [vm_compute; reflexivity|]).
  lia.
Qed.

(** The same values, as Python prints them. *)
Lemma percentage_values :
  map (fun k => PyFloat.round2 (percentage_of k)) (seq 0 12) =
  [0; 9.09; 18.18; 27.27; 36.36; 45.45; 54.55; 63.64; 72.73; 81.82; 90.91; 100]%float.
Proof. vm_compute. reflexivity. Qed.

Lemma percentage_at_least_one (k : nat) :
  1 <= k <= 11 -> PrimFloat.leb 9.09 (PyFloat.round2 (percentage_of k)) = true.
Proof.
  intros H.
  destruct k as [|k]; [lia|].
  do 11 (destruct k as [|k]; [vm_compute; reflexivity|]).
  lia.
Qed.

(** ** Runs of the route *)

Lemma extension_run (name : string) (log : list event) :
  extension name log = (Ok (extension_of name), log).
Proof.
  unfold extension, extension_of, bind, getitem_last, Str.rsplit1.
  destruct (Str.rsplit_last "." name) as [[pre suf]|]; reflexivity.
Qed.

Lemma extension_of_split (pre suf : string) :
  Str.has_char "." suf = false ->
  extension_of (pre ++ "." ++ suf) = Str.lower suf.
Proof.
  intros H. unfold extension_of.
  change (pre ++ "." ++ suf) with (pre ++ String "." suf).
  now rewrite (rsplit_last_some _ _ _ H).
Qed.

Lemma extension_of_no_dot (name : string) :
  Str.has_char "." name = false -> extension_of name = Str.lower name.
Proof.
  intros H. unfold extension_of. now rewrite (rsplit_last_none _ _ H).
Qed.

Lemma extract_text_run (w : World) (ext path : string) (log : list event) :
  extract_text w ext path log =
  (Ok (extracted_text w ext path), (log ++ [extraction_event ext path])%list).
Proof.
  unfold extract_text, extracted_text, extraction_event.
  destruct (String.eqb ext "pdf").
  - apply extract_text_from_pdf_run.
  - apply extract_text_from_docx_run.
Qed.

Lemma files_contains_find (key : string) (fs : list (string * FileStorage)) :
  files_contains key fs =
  match find (fun kv => String.eqb (fst kv) key) fs with
  | Some _ => true
  | None => false
  end.
Proof.
  unfold files_contains.
  induction fs as [|kv fs IH]; simpl; [reflexivity|].
  destruct (String.eqb (fst kv) key); [reflexivity | exact IH].
Qed.

Lemma upload_of_none (request : Request) :
  upload_of request = None <->
  forall kv, In kv (files request) -> fst kv <> "resume".
Proof.
  unfold upload_of.
  destruct (find _ (files request)) as [kv|] eqn:E; simpl.
  - split; [discriminate|]. intros H.
    apply find_some in E as [Hin Hk]. apply String.eqb_eq in Hk.
    now destruct (H kv Hin).
  - split; [|reflexivity]. intros _ kv Hin Hk.
    pose proof (find_none _ _ E kv Hin) as Hf. cbv beta in Hf.
    rewrite Hk, String.eqb_refl in Hf. discriminate.
Qed.

Lemma upload_of_some (request : Request) :
  (exists file, upload_of request = Some file) <->
  exists file, In ("resume", file) (files request).
Proof.
  split.
  - intros [file H]. unfold upload_of in H.
    destruct (find _ (files request)) as [[k f]|] eqn:E; [|discriminate].
    apply find_some in E as [Hin Hk]. apply String.eqb_eq in Hk.
    simpl in Hk. subst k. now exists f.
  - intros [file Hin].
    destruct (upload_of request) as [f|] eqn:E; [now exists f|].
    pose proof (proj1 (upload_of_none request) E _ Hin) as Hne. now destruct Hne.
Qed.

(** The route on a request without the field. *)
Lemma analyze_without_upload (w : World) (request : Request) (log : list event) :
  upload_of request = None ->
  analyze w request log = (Ok (WithStatus [("error", "No file uploaded")] 400), log).
Proof.
  unfold upload_of, analyze. rewrite files_contains_find.
  destruct (find _ (files request)); [discriminate | reflexivity].
Qed.


(** The route once the file is saved. *)
Lemma analyze_with_upload (w : World) (request : Request) (file : FileStorage)
  (log : list event) :
  upload_of request = Some file ->
  file_save w (saved_path w (filename file)) = Ok tt ->
  let ext := extension_of (filename file) in
  let path := saved_path w (filename file) in
  let text := extracted_text w ext path in
  exists r,
    analyze_resume w text [] =
      (Ok r, [GenerateContent "gemini-2.0-flash" (suggestion_prompt text)]) /\
    analyze w request log =
      (Ok (Text (json_to_html w r)),
       (log ++ [FileSave path; extraction_event ext path;
                GenerateContent "gemini-2.0-flash" (suggestion_prompt text)])%list).
Proof.
  intros Hup Hsave. cbv zeta.
  eexists. split; [apply analyze_resume_run|].
  revert Hup. unfold upload_of, analyze. rewrite files_contains_find.
  unfold files_getitem.
  destruct (find _ (files request)) as [kv|]; [|discriminate].
  intros [= Hkv]. cbn [negb].
  unfold bind at 1. unfold ret at 1.
  unfold bind at 1. rewrite extension_run. rewrite Hkv.
  fold (saved_path w (filename file)).
  unfold bind at 1. unfold call at 1. rewrite Hsave.
  unfold bind at 1. rewrite extract_text_run.
  unfold bind at 1. rewrite analyze_resume_run.
  unfold ret. rewrite <- !app_assoc. reflexivity.
Qed.

(** * Properties *)

(** ** Properties of the analyzer *)

(** C1: for every text [T], [analyze_resume] returns, and its
    [match_percentage] is 100 times the number of skills of the fixed list
    of 11 whose lowercased form is a substring of the lowercased [T],
    divided by 11, rounded to two decimals: with [k] that number, it is
    the float of the decimal [h / 100], [h] the integer nearest to
    [100 * k * 100 / 11]. *)
Theorem match_percentage_formula (w : World) (T : string) (log : list event) :
  exists r log',
    analyze_resume w T log = (Ok r, log') /\
    List.length REQUIRED_SKILLS = 11 /\
    let k := count_if (fun skill => Str.contains (Str.lower skill) (Str.lower T))
               REQUIRED_SKILLS in
    match_percentage r =
    PyFloat.of_hundredths (PyFloat.round_half_even (100 * Z.of_nat k * 100) 11).
Proof.
  rewrite analyze_resume_run. eexists; eexists.
  split; [reflexivity|]. split; [reflexivity|].
  cbv zeta. cbn [match_percentage].
  rewrite length_filter_count.
  apply percentage_rounding.
  apply (count_if_le _ REQUIRED_SKILLS).
Qed.

(** C2: for every text [T], [skills_matched] and [missing_skills] have no
    skill in common, together they hold exactly the 11 skills of the
    fixed list, and each lists its skills in the order of that list. *)
Theorem matched_missing_partition (w : World) (T : string) (log : list event) :
  exists r log',
    analyze_resume w T log = (Ok r, log') /\
    (forall s, In s (skills_matched r) -> ~ In s (missing_skills r)) /\
    Permutation (skills_matched r ++ missing_skills r)%list REQUIRED_SKILLS /\
    List.length (skills_matched r) + List.length (missing_skills r) = 11 /\
    NoDup REQUIRED_SKILLS /\
    Subseq (skills_matched r) REQUIRED_SKILLS /\
    Subseq (missing_skills r) REQUIRED_SKILLS.
Proof.
  rewrite analyze_resume_run. eexists; eexists.
  split; [reflexivity|]. cbn [skills_matched missing_skills].
  set (p := fun skill => Str.contains (Str.lower skill) (Str.lower T)).
  pose proof (filter_split_Permutation p REQUIRED_SKILLS) as HP.
  repeat split.
  - apply filter_split_disjoint.
  - exact HP.
  - pose proof (Permutation_length HP) as HL. rewrite length_app in HL. exact HL.
  - repeat constructor; simpl; intuition discriminate.
  - apply filter_Subseq.
  - apply (filter_Subseq (fun x => negb (p x))).
Qed.

Lemma advisories_concat (T : string) :
  advisories T =
  ((if Str.contains "projects" (Str.lower T) then [] else [ADVICE_PROJECTS]) ++
   (if Str.contains "experience" (Str.lower T) then [] else [ADVICE_EXPERIENCE]) ++
   (if Str.contains "education" (Str.lower T) then [] else [ADVICE_EDUCATION]) ++
   (if Str.contains "certification" (Str.lower T) then [] else [ADVICE_CERTIFICATION]))%list.
Proof.
  unfold advisories, append_if.
  destruct (Str.contains "projects" _), (Str.contains "experience" _),
    (Str.contains "education" _), (Str.contains "certification" _); reflexivity.
Qed.

(** C6: for every text [T], the recommendations are the outcome of four
    separate case-insensitive substring checks, for "projects",
    "experience", "education" and "certification" in that order; each
    contributes its own advisory exactly when its keyword does not occur
    in [T], so there are between 0 and 4 of them. *)
Theorem recommendations_checks (w : World) (T : string) (log : list event) :
  exists r log',
    analyze_resume w T log = (Ok r, log') /\
    recommendations r =
    ((if occurs_ci "projects" T then [] else [ADVICE_PROJECTS]) ++
     (if occurs_ci "experience" T then [] else [ADVICE_EXPERIENCE]) ++
     (if occurs_ci "education" T then [] else [ADVICE_EDUCATION]) ++
     (if occurs_ci "certification" T then [] else [ADVICE_CERTIFICATION]))%list /\
    (In ADVICE_PROJECTS (recommendations r) <-> occurs_ci "projects" T = false) /\
    (In ADVICE_EXPERIENCE (recommendations r) <-> occurs_ci "experience" T = false) /\
    (In ADVICE_EDUCATION (recommendations r) <-> occurs_ci "education" T = false) /\
    (In ADVICE_CERTIFICATION (recommendations r) <-> occurs_ci "certification" T = false) /\
    0 <= List.length (recommendations r) <= 4.
Proof.
  rewrite analyze_resume_run. eexists; eexists.
  split; [reflexivity|]. cbn [recommendations].
  rewrite advisories_concat.
  change (occurs_ci "projects" T) with (Str.contains "projects" (Str.lower T)).
  change (occurs_ci "experience" T) with (Str.contains "experience" (Str.lower T)).
  change (occurs_ci "education" T) with (Str.contains "education" (Str.lower T)).
  change (occurs_ci "certification" T) with (Str.contains "certification" (Str.lower T)).
  destruct (Str.contains "projects" _), (Str.contains "experience" _),
    (Str.contains "education" _), (Str.contains "certification" _);
    cbn [app In List.length];
    (split; [reflexivity|]);
    repeat split; try lia; try discriminate; try tauto;
    intros H; repeat destruct H as [H|H]; try discriminate H; try contradiction.
Qed.

(** C8: a text in which "Python", "SQL" and "education" occur (whatever
    the case) and none of the nine other skills, nor "projects",
    "experience" or "certification", gets [skills_matched = ["Python";
    "SQL"]], [match_percentage = 18.18], and the Projects, Experience and
    Certification advisories without the Education one. *)
Theorem scenario_python_sql_education (w : World) (T : string) (log : list event) :
  occurs_ci "Python" T = true ->
  occurs_ci "SQL" T = true ->
  occurs_ci "education" T = true ->
  (forall skill, In skill REQUIRED_SKILLS -> skill <> "Python" -> skill <> "SQL" ->
                 occurs_ci skill T = false) ->
  occurs_ci "projects" T = false ->
  occurs_ci "experience" T = false ->
  occurs_ci "certification" T = false ->
  exists r log',
    analyze_resume w T log = (Ok r, log') /\
    skills_matched r = ["Python"; "SQL"] /\
    match_percentage r = 18.18%float /\
    In ADVICE_PROJECTS (recommendations r) /\
    In ADVICE_EXPERIENCE (recommendations r) /\
    In ADVICE_CERTIFICATION (recommendations r) /\
    ~ In ADVICE_EDUCATION (recommendations r).
Proof.
  intros Hpy Hsql Hedu Hothers Hproj Hexp Hcert.
  assert (Hs : forall skill, In skill REQUIRED_SKILLS ->
                 skill <> "Python" -> skill <> "SQL" ->
                 Str.contains (Str.lower skill) (Str.lower T) = false)
    by exact Hothers.
  rewrite analyze_resume_run. eexists; eexists.
  split; [reflexivity|].
  cbn [skills_matched match_percentage recommendations].
  assert (Hfound :
    filter (fun skill => Str.contains (Str.lower skill) (Str.lower T)) REQUIRED_SKILLS
    = ["Python"; "SQL"]).
  { unfold REQUIRED_SKILLS. cbn [filter].
    unfold occurs_ci in Hpy, Hsql. rewrite Hpy, Hsql.
    repeat (rewrite Hs; [| unfold REQUIRED_SKILLS; simpl; tauto
                         | discriminate | discriminate]).
    reflexivity. }
  rewrite Hfound, advisories_concat.
  change (Str.contains "projects" (Str.lower T)) with (occurs_ci "projects" T).
  change (Str.contains "experience" (Str.lower T)) with (occurs_ci "experience" T).
  change (Str.contains "education" (Str.lower T)) with (occurs_ci "education" T).
  change (Str.contains "certification" (Str.lower T)) with (occurs_ci "certification" T).
  rewrite Hproj, Hexp, Hedu, Hcert.
  split; [reflexivity|]. split; [vm_compute; reflexivity|].
  cbn [app In]. repeat split; try tauto.
  intros H; repeat destruct H as [H|H]; try discriminate H; contradiction.
Qed.

(** C10: matching is substring containment, so a text whose lowercased
    form has the letters "ai" anywhere (inside "maintained" or "trained",
    say) has the skill "AI" among [skills_matched] and a
    [match_percentage] of at least 9.09. *)
Theorem ai_matches_inside_words (w : World) (T before after : string)
  (log : list event) :
  Str.lower T = before ++ "ai" ++ after ->
  exists r log',
    analyze_resume w T log = (Ok r, log') /\
    In "AI" (skills_matched r) /\
    PrimFloat.leb 9.09 (match_percentage r) = true.
Proof.
  intros Hsplit.
  assert (Hai : Str.contains "ai" (Str.lower T) = true)
    by (apply contains_iff; now exists before, after).
  rewrite analyze_resume_run. eexists; eexists.
  split; [reflexivity|]. cbn [skills_matched match_percentage].
  set (p := fun skill => Str.contains (Str.lower skill) (Str.lower T)).
  assert (Hin : In "AI" (filter p REQUIRED_SKILLS)).
  { apply filter_In. split; [unfold REQUIRED_SKILLS; simpl; tauto | exact Hai]. }
  split; [exact Hin|].
  apply percentage_at_least_one. split.
  - destruct (filter p REQUIRED_SKILLS); [contradiction | simpl; lia].
  - rewrite length_filter_count. apply (count_if_le p REQUIRED_SKILLS).
Qed.

(** ** Properties of the extractors and of the suggestion client *)

(** C4: for every path, when the PDF text extraction raises,
    [extract_text_from_pdf] returns the string "Error extracting text from
    PDF: " followed by the message of the exception, which begins with
    "Error extracting text from PDF:", and lets no exception out; when the
    extraction succeeds, it returns the extracted text. *)
Theorem extract_text_from_pdf_soft_failure (w : World) (filepath : string)
  (log : list event) :
  match pdfminer_extract_text w filepath with
  | Raised e =>
      exists s,
        fst (extract_text_from_pdf w filepath log) = Ok s /\
        s = "Error extracting text from PDF: " ++ str_of_exn e /\
        Str.startswith "Error extracting text from PDF:" s = true
  | Ok text =>
      fst (extract_text_from_pdf w filepath log) = Ok text
  end.
Proof.
  rewrite extract_text_from_pdf_run. unfold pdf_text_or_error. cbn [fst].
  destruct (pdfminer_extract_text w filepath) as [text|e]; [reflexivity|].
  eexists. split; [reflexivity|]. split; reflexivity.
Qed.

(** C5: for every text, when the call to the generative model raises,
    [get_resume_suggestions] returns "AI Error: " followed by the message
    of the exception and lets no exception out; when the call succeeds it
    returns the text of the model's response as it is. *)
Theorem get_resume_suggestions_soft_failure (w : World) (text : string)
  (log : list event) :
  match generate_content_text w "gemini-2.0-flash" (suggestion_prompt text) with
  | Raised e =>
      fst (get_resume_suggestions w text log) = Ok ("AI Error: " ++ str_of_exn e)
  | Ok answer =>
      fst (get_resume_suggestions w text log) = Ok answer
  end.
Proof.
  rewrite get_resume_suggestions_run. unfold suggestions_or_error. cbn [fst].
  now destruct (generate_content_text w _ _).
Qed.

(** ** Properties of the route *)

(** C3: for an uploaded file named [pre.suf], [suf] without a dot, the
    extension is the lowercased [suf], the text after the last dot;
    [extract_text] goes to the PDF extractor when the extension is "pdf"
    and to the DOCX extractor for every other one; and in the route, once
    the file is saved, the one extraction call is the PDF one exactly
    when the extension is "pdf". *)
Theorem extension_dispatch (w : World) (request : Request) (file : FileStorage)
  (pre suf : string) (log : list event) :
  upload_of request = Some file ->
  filename file = pre ++ "." ++ suf ->
  Str.has_char "." suf = false ->
  extension (filename file) log = (Ok (Str.lower suf), log) /\
  (forall ext path l,
     (ext = "pdf" -> extract_text w ext path l = extract_text_from_pdf w path l) /\
     (ext <> "pdf" -> extract_text w ext path l = extract_text_from_docx w path l)) /\
  (forall path,
     path = os_path_join "temp" (uuid4 w ++ "." ++ Str.lower suf) ->
     file_save w path = Ok tt ->
     exists v text,
       analyze w request log =
       (Ok v,
        (log ++ [FileSave path;
                 if String.eqb (Str.lower suf) "pdf"
                 then PdfExtractText path else DocxDocument path;
                 GenerateContent "gemini-2.0-flash" (suggestion_prompt text)])%list)).
Proof.
  intros Hup Hname Hsuf.
  assert (Hext : extension_of (filename file) = Str.lower suf)
    by (rewrite Hname; now apply extension_of_split).
  split; [| split].
  - now rewrite extension_run, Hext.
  - intros ext path l. unfold extract_text. split.
    + now intros ->.
    + intros Hne. apply String.eqb_neq in Hne. now rewrite Hne.
  - intros path -> Hsave.
    assert (Hpath : saved_path w (filename file) =
                    os_path_join "temp" (uuid4 w ++ "." ++ Str.lower suf))
      by (unfold saved_path; now rewrite Hext).
    rewrite <- Hpath in Hsave.
    destruct (analyze_with_upload w request file log Hup Hsave) as [r [_ Hrun]].
    rewrite Hrun, Hext, Hpath. unfold extraction_event.
    eexists; eexists. reflexivity.
Qed.

(** C7, as the route has it: a request without a field named resume gets
    status 400 and the body error: No file uploaded; a request with the
    field gets status 200 and an HTML body once its file is saved. *)
Theorem analyze_responses (w : World) (request : Request) (log : list event) :
  ((forall kv, In kv (files request) -> fst kv <> "resume") ->
   exists v,
     analyze w request log = (Ok v, log) /\
     make_response v =
     {| status := 400; payload := Json [("error", "No file uploaded")] |}) /\
  (forall file,
     upload_of request = Some file ->
     file_save w (saved_path w (filename file)) = Ok tt ->
     exists html log',
       analyze w request log = (Ok (Text html), log') /\
       make_response (Text html) = {| status := 200; payload := Html html |}).
Proof.
  split.
  - intros Hno. apply upload_of_none in Hno.
    rewrite (analyze_without_upload _ _ _ Hno).
    eexists. split; reflexivity.
  - intros file Hup Hsave.
    destruct (analyze_with_upload w request file log Hup Hsave) as [r [_ Hrun]].
    rewrite Hrun. eexists; eexists. split; reflexivity.
Qed.

(** C7, as stated, fails: the field is there, the disk is full, and the
    route raises at the save instead of returning a response. *)
Lemma upload_on_full_disk_raises :
  (exists file, In ("resume", file) (files (upload "cv.pdf"))) /\
  analyze world_disk_full (upload "cv.pdf") [] =
  (Raised (Exn "[Errno 28] No space left on device"),
   [FileSave "temp/3f2b8c1e-5d4a-4e6f-9a7b-0c1d2e3f4a5b.pdf"]).
Proof.
  split; [eexists; left; reflexivity | reflexivity].
Qed.

(** C9, as the route has it: for an uploaded file whose name has no dot,
    the extension is the whole lowercased name; the file is saved as
    uuid.extension under temp; once it is saved the route returns a 200
    response, and the extraction is the DOCX one unless the lowercased
    name is "pdf", when it is the PDF one. *)
Theorem dotless_filename_upload (w : World) (request : Request) (file : FileStorage)
  (log : list event) :
  upload_of request = Some file ->
  Str.has_char "." (filename file) = false ->
  file_save w (os_path_join "temp" (uuid4 w ++ "." ++ Str.lower (filename file))) = Ok tt ->
  extension (filename file) log = (Ok (Str.lower (filename file)), log) /\
  exists html text call,
    analyze w request log =
    (Ok (Text html),
     (log ++ [FileSave (os_path_join "temp" (uuid4 w ++ "." ++ Str.lower (filename file)));
              call;
              GenerateContent "gemini-2.0-flash" (suggestion_prompt text)])%list) /\
    status (make_response (Text html)) = 200%Z /\
    (Str.lower (filename file) <> "pdf" ->
     call = DocxDocument (os_path_join "temp" (uuid4 w ++ "." ++ Str.lower (filename file)))) /\
    (Str.lower (filename file) = "pdf" ->
     call = PdfExtractText (os_path_join "temp" (uuid4 w ++ "." ++ Str.lower (filename file)))).
Proof.
  intros Hup Hdot Hsave.
  pose proof (extension_of_no_dot _ Hdot) as Hext.
  assert (Hpath : saved_path w (filename file) =
                  os_path_join "temp" (uuid4 w ++ "." ++ Str.lower (filename file)))
    by (unfold saved_path; now rewrite Hext).
  rewrite <- Hpath in *.
  split; [now rewrite extension_run, Hext|].
  destruct (analyze_with_upload w request file log Hup Hsave) as [r [_ Hrun]].
  rewrite Hrun, Hext. unfold extraction_event.
  do 3 eexists. split; [reflexivity|]. split; [reflexivity|]. split.
  - intros Hne. apply String.eqb_neq in Hne. now rewrite Hne.
  - intros ->. reflexivity.
Qed.

(** C9, as stated, fails: the name PDF has no dot, nothing fails, and the
    route calls the PDF extractor, not the DOCX one. *)
Lemma dotless_pdf_name_goes_to_pdf :
  Str.has_char "." "PDF" = false /\
  analyze world_ok (upload "PDF") [] =
  (Ok (Text "<!DOCTYPE html>Python, SQL"),
   [FileSave "temp/3f2b8c1e-5d4a-4e6f-9a7b-0c1d2e3f4a5b.pdf";
    PdfExtractText "temp/3f2b8c1e-5d4a-4e6f-9a7b-0c1d2e3f4a5b.pdf";
    GenerateContent "gemini-2.0-flash" (suggestion_prompt "Python SQL education")]) /\
  forall path, ~ In (DocxDocument path) (snd (analyze world_ok (upload "PDF") [])).
Proof.
  split; [reflexivity|]. split; [vm_compute; reflexivity|].
  intros path H. vm_compute in H.
  repeat destruct H as [H|H]; try discriminate H; contradiction.
Qed.


(** ** The properties at work on concrete inputs *)

(** The scenario of C8 on the text "Python SQL education". *)
Lemma scenario_python_sql_education_witness :
  (occurs_ci "Python" "Python SQL education" = true /\
   occurs_ci "SQL" "Python SQL education" = true /\
   occurs_ci "education" "Python SQL education" = true /\
   occurs_ci "projects" "Python SQL education" = false /\
   occurs_ci "experience" "Python SQL education" = false /\
   occurs_ci "certification" "Python SQL education" = false) /\
  exists r log',
    analyze_resume world_ok "Python SQL education" [] = (Ok r, log') /\
    skills_matched r = ["Python"; "SQL"] /\
    match_percentage r = 18.18%float /\
    In ADVICE_PROJECTS (recommendations r) /\
    In ADVICE_EXPERIENCE (recommendations r) /\
    In ADVICE_CERTIFICATION (recommendations r) /\
    ~ In ADVICE_EDUCATION (recommendations r).
Proof.
  split; [repeat split; reflexivity|].
  apply (scenario_python_sql_education world_ok "Python SQL education" []);
    try reflexivity.
  intros skill Hin Hpy Hsql. unfold REQUIRED_SKILLS in Hin. simpl in Hin.
  repeat (destruct Hin as [<-|Hin];
          [first [reflexivity | now destruct Hpy | now destruct Hsql]|]).
  contradiction.
Defined.

(** C10 on a text whose only match is inside the word "Maintained". *)
Lemma ai_matches_inside_words_witness :
  Str.lower "Maintained servers" = "m" ++ "ai" ++ "ntained servers" /\
  exists r log',
    analyze_resume world_ok "Maintained servers" [] = (Ok r, log') /\
    In "AI" (skills_matched r) /\
    PrimFloat.leb 9.09 (match_percentage r) = true.
Proof.
  split; [reflexivity|].
  apply (ai_matches_inside_words world_ok "Maintained servers"
           "m" "ntained servers" []).
  reflexivity.
Defined.

(** C3 on the upload named a.b.pdf: the extension is pdf, not b.pdf, and
    the PDF extractor is called. *)
Lemma extension_dispatch_witness :
  extension "a.b.pdf" [] = (Ok "pdf", []) /\
  exists v text,
    analyze world_ok (upload "a.b.pdf") [] =
    (Ok v,
     [FileSave "temp/3f2b8c1e-5d4a-4e6f-9a7b-0c1d2e3f4a5b.pdf";
      PdfExtractText "temp/3f2b8c1e-5d4a-4e6f-9a7b-0c1d2e3f4a5b.pdf";
      GenerateContent "gemini-2.0-flash" (suggestion_prompt text)]).
Proof.
  destruct (extension_dispatch world_ok (upload "a.b.pdf")
              {| filename := "a.b.pdf"; stream := "%PDF-1.4" |} "a.b" "pdf" []
              eq_refl eq_refl eq_refl) as [Hext [_ Hrun]].
  split; [exact Hext|].
  exact (Hrun _ eq_refl eq_refl).
Defined.

(** The two cases of C7 on a form without the field and on an upload. *)
Lemma analyze_responses_witness :
  (exists v,
     analyze world_ok {| files := [("photo", {| filename := "me.png"; stream := "" |})] |} [] =
     (Ok v, []) /\
     make_response v =
     {| status := 400; payload := Json [("error", "No file uploaded")] |}) /\
  (exists html log',
     analyze world_ok (upload "cv.pdf") [] = (Ok (Text html), log') /\
     make_response (Text html) = {| status := 200; payload := Html html |}).
Proof.
  split.
  - apply (proj1 (analyze_responses world_ok _ [])).
    intros kv [<-|[]]. discriminate.
  - apply (proj2 (analyze_responses world_ok (upload "cv.pdf") [])
             {| filename := "cv.pdf"; stream := "%PDF-1.4" |});
      reflexivity.
Defined.

(** C9 on the upload named resume: saved as uuid.resume and read as a
    DOCX file. *)
Lemma dotless_filename_upload_witness :
  Str.has_char "." "resume" = false /\
  extension "resume" [] = (Ok "resume", []) /\
  exists html text,
    analyze world_ok (upload "resume") [] =
    (Ok (Text html),
     [FileSave "temp/3f2b8c1e-5d4a-4e6f-9a7b-0c1d2e3f4a5b.resume";
      DocxDocument "temp/3f2b8c1e-5d4a-4e6f-9a7b-0c1d2e3f4a5b.resume";
      GenerateContent "gemini-2.0-flash" (suggestion_prompt text)]).
Proof.
  split; [reflexivity|].
  destruct (dotless_filename_upload world_ok (upload "resume")
              {| filename := "resume"; stream := "%PDF-1.4" |} []
              eq_refl eq_refl eq_refl)
    as [Hext [html [text [call [Hrun [_ [Hdocx _]]]]]]].
  split; [exact Hext|].
  exists html, text.
  rewrite Hrun, Hdocx; [reflexivity | discriminate].
Defined.

(** * More of the program *)

(** ** More facts on strings *)

Section MoreStrFacts.

Import Str.

Lemma lower_append (a b : string) : lower (a ++ b) = lower a ++ lower b.
Proof. induction a as [|c a IH]; simpl; [reflexivity | now rewrite IH]. Qed.

Lemma append_assoc3 (a b c : string) : (a ++ b) ++ c = a ++ b ++ c.
Proof. induction a as [|x a IH]; simpl; [reflexivity | now rewrite IH]. Qed.

(** A substring of a part is a substring of the whole. *)
Lemma contains_extend (sub s before after : string) :
  contains sub s = true -> contains sub (before ++ s ++ after) = true.
Proof.
  rewrite !contains_iff. intros [l [r ->]].
  exists (before ++ l), (r ++ after).
  now rewrite !append_assoc3.
Qed.

(** Lowering moves no character onto or off a character that is not a
    letter. *)
Lemma lower_char_fixes (c x : ascii) :
  lower_char x = x -> (forall y, lower_char y = x -> y = x) ->
  Ascii.eqb (lower_char c) x = Ascii.eqb c x.
Proof.
  intros Hx Hinv. destruct (Ascii.eqb c x) eqn:E.
  - apply Ascii.eqb_eq in E as ->. rewrite Hx. apply Ascii.eqb_refl.
  - apply Ascii.eqb_neq. intros H. apply Hinv in H. subst c.
    rewrite Ascii.eqb_refl in E. discriminate.
Qed.

Lemma lower_char_newline (c : ascii) :
  Ascii.eqb (lower_char c) "010" = Ascii.eqb c "010".
Proof.
  apply lower_char_fixes; [reflexivity|].
  intros y. destruct y as [[] [] [] [] [] [] [] []]; vm_compute; congruence.
Qed.



(** A pattern without [c] cannot start across a [c]. *)
Lemma startswith_across (c : ascii) (sub a b : string) :
  has_char c sub = false ->
  startswith sub (a ++ String c b) = startswith sub a.
Proof.
  revert a; induction sub as [|x sub IH]; intros a H; [now destruct a|].
  simpl in H. apply orb_false_iff in H as [Hx Hsub].
  destruct a as [|y a]; simpl.
  - now rewrite Hx.
  - now rewrite (IH a Hsub).
Qed.

(** A non-empty pattern without [c] occurs in [a c b] exactly when it
    occurs in [a] or in [b]. *)
Lemma contains_across (c : ascii) (sub a b : string) :
  has_char c sub = false -> sub <> "" ->
  contains sub (a ++ String c b) = contains sub a || contains sub b.
Proof.
  intros H Hne. induction a as [|y a IH].
  - cbn [append]. cbn [contains].
    change (String c b) with ("" ++ String c b).
    rewrite (startswith_across c sub "" b H).
    destruct sub as [|x sub]; [now destruct Hne | reflexivity].
  - change (String y a ++ String c b) with (String y (a ++ String c b)).
    cbn [contains]. rewrite IH.
    change (String y (a ++ String c b)) with (String y a ++ String c b).
    rewrite (startswith_across c sub (String y a) b H).
    now rewrite orb_assoc.
Qed.

Lemma concat_cons2 (sep p q : string) (ps : list string) :
  String.concat sep (p :: q :: ps) = p ++ sep ++ String.concat sep (q :: ps).
Proof. reflexivity. Qed.

Lemma lower_join_newline (ps : list string) :
  lower (join (String "010" "") ps) = join (String "010" "") (map lower ps).
Proof.
  unfold join. induction ps as [|p ps IH]; [reflexivity|].
  destruct ps as [|q ps]; [reflexivity|].
  change (map lower (p :: q :: ps)) with (lower p :: lower q :: map lower ps).
  rewrite !concat_cons2, !lower_append.
  change (map lower (q :: ps)) with (lower q :: map lower ps) in IH.
  now rewrite IH.
Qed.

(** A non-empty pattern without a newline occurs in the joined
    paragraphs exactly when it occurs in one of them. *)
Lemma contains_join_newline (sub : string) (ps : list string) :
  has_char "010" sub = false -> sub <> "" ->
  contains sub (join (String "010" "") ps) = existsb (contains sub) ps.
Proof.
  intros H Hne. unfold join. induction ps as [|p ps IH].
  - destruct sub; [now destruct Hne | reflexivity].
  - destruct ps as [|q ps].
    + cbn [String.concat existsb]. now rewrite orb_false_r.
    + rewrite concat_cons2.
      change (p ++ String "010" "" ++ String.concat (String "010" "") (q :: ps))
        with (p ++ String "010" (String.concat (String "010" "") (q :: ps))).
      rewrite (contains_across _ _ _ _ H Hne), IH. reflexivity.
Qed.

End MoreStrFacts.

(** ** More facts on lists and on the percentage *)

Lemma Subseq_length {A : Type} (l1 l2 : list A) :
  Subseq l1 l2 -> List.length l1 <= List.length l2.
Proof. induction 1; simpl; lia. Qed.

Lemma filter_Subseq_impl {A : Type} (p q : A -> bool) (l : list A) :
  (forall x, In x l -> p x = true -> q x = true) ->
  Subseq (filter p l) (filter q l).
Proof.
  induction l as [|x l IH]; intros H; simpl; [constructor|].
  assert (IH' : Subseq (filter p l) (filter q l))
    by (apply IH; intros y Hy; apply H; now right).
  destruct (p x) eqn:Ep.
  - rewrite (H x (or_introl eq_refl) Ep). now constructor.
  - destruct (q x); [now constructor | exact IH'].
Qed.

Lemma existsb_map {A B : Type} (f : B -> bool) (g : A -> B) (l : list A) :
  existsb f (map g l) = existsb (fun x => f (g x)) l.
Proof. induction l as [|x l IH]; simpl; [reflexivity | now rewrite IH]. Qed.

(** On the twelve possible counts the rounded percentages are ordered as
    the counts are, and equal only for equal counts. *)
Lemma percentage_order (k k' : nat) :
  k <= 11 -> k' <= 11 ->
  PrimFloat.leb (PyFloat.round2 (percentage_of k)) (PyFloat.round2 (percentage_of k'))
  = (k <=? k')%nat /\
  PrimFloat.eqb (PyFloat.round2 (percentage_of k)) (PyFloat.round2 (percentage_of k'))
  = (k =? k')%nat.
Proof.
  intros H H'.
  do 12 (destruct k as [|k];
         [do 12 (destruct k' as [|k']; [vm_compute; split; reflexivity|]); lia|]).
  lia.
Qed.

Lemma found_at_most_11 (p : string -> bool) :
  List.length (filter p REQUIRED_SKILLS) <= 11.
Proof. rewrite length_filter_count. apply (count_if_le p REQUIRED_SKILLS). Qed.

(** Every lowercased skill and every section keyword is non-empty and
    has no newline. *)
Lemma keyword_shape (kw : string) :
  In kw KEYWORDS -> Str.has_char "010" kw = false /\ kw <> "".
Proof.
  unfold KEYWORDS, REQUIRED_SKILLS. simpl.
  intros H. repeat (destruct H as [<-|H]; [split; [reflexivity | discriminate]|]).
  contradiction.
Qed.

Lemma skill_keyword (skill : string) :
  In skill REQUIRED_SKILLS -> In (Str.lower skill) KEYWORDS.
Proof. intros H. apply in_or_app. left. now apply in_map. Qed.

(** The fixed head of an extraction error holds no keyword, and no
    keyword starts in it. *)
Lemma error_prefix_adds_nothing (prefix kw msg : string) :
  In prefix ["Error extracting text from PDF: "; "Error extracting text from DOCX: "] ->
  In kw KEYWORDS ->
  Str.contains kw (Str.lower (prefix ++ msg)) = Str.contains kw (Str.lower msg).
Proof.
  intros Hp Hk. rewrite lower_append.
  unfold KEYWORDS, REQUIRED_SKILLS in Hk. simpl in Hk, Hp.
  destruct Hp as [<-|[<-|[]]];
    repeat (destruct Hk as [<-|Hk]; [reflexivity|]); contradiction.
Qed.

(** ** More properties of the extractors *)

(** X1: [extract_text_from_docx] makes one call to the DOCX parser and
    never raises: when the parser raises it returns "Error extracting
    text from DOCX: " followed by the message, otherwise the texts of the
    paragraphs with one newline between two of them. *)
Theorem extract_text_from_docx_soft_failure (w : World) (docx_path : string)
  (log : list event) :
  snd (extract_text_from_docx w docx_path log) = (log ++ [DocxDocument docx_path])%list /\
  match docx_paragraphs w docx_path with
  | Raised e =>
      fst (extract_text_from_docx w docx_path log)
      = Ok ("Error extracting text from DOCX: " ++ str_of_exn e)
  | Ok paragraphs =>
      fst (extract_text_from_docx w docx_path log)
      = Ok (String.concat newline paragraphs)
  end.
Proof.
  rewrite extract_text_from_docx_run. unfold docx_text_or_error. cbn [fst snd].
  split; [reflexivity|].
  now destruct (docx_paragraphs w docx_path).
Qed.

Lemma docx_keyword_by_paragraph (kw : string) (ps : list string) :
  In kw KEYWORDS ->
  Str.contains kw (Str.lower (Str.join newline ps))
  = existsb (fun p => Str.contains kw (Str.lower p)) ps.
Proof.
  intros H. destruct (keyword_shape kw H) as [Hnl Hne].
  unfold newline. rewrite lower_join_newline.
  rewrite (contains_join_newline kw _ Hnl Hne). apply existsb_map.
Qed.

(** X2: the text of a DOCX file is scored paragraph by paragraph: a
    skill is matched exactly when it occurs in one of the paragraphs, and
    an advisory is given exactly when its keyword occurs in none; no
    match is made across the end of a paragraph. *)
Theorem docx_scored_by_paragraph (w : World) (docx_path : string)
  (paragraphs : list string) (log : list event) :
  docx_paragraphs w docx_path = Ok paragraphs ->
  exists text log1 r log2,
    extract_text_from_docx w docx_path log = (Ok text, log1) /\
    analyze_resume w text log1 = (Ok r, log2) /\
    skills_matched r
    = filter (fun skill => existsb (occurs_ci skill) paragraphs) REQUIRED_SKILLS /\
    recommendations r
    = ((if existsb (occurs_ci "projects") paragraphs then [] else [ADVICE_PROJECTS]) ++
       (if existsb (occurs_ci "experience") paragraphs then [] else [ADVICE_EXPERIENCE]) ++
       (if existsb (occurs_ci "education") paragraphs then [] else [ADVICE_EDUCATION]) ++
       (if existsb (occurs_ci "certification") paragraphs then []
        else [ADVICE_CERTIFICATION]))%list.
Proof.
  intros Hdoc.
  rewrite extract_text_from_docx_run. unfold docx_text_or_error. rewrite Hdoc.
  do 4 eexists. split; [reflexivity|].
  rewrite analyze_resume_run. split; [reflexivity|].
  cbn [skills_matched recommendations]. split.
  - apply filter_ext_in. intros skill Hin.
    now rewrite (docx_keyword_by_paragraph _ _ (skill_keyword _ Hin)).
  - rewrite advisories_concat.
    rewrite !docx_keyword_by_paragraph
      by (unfold KEYWORDS; apply in_or_app; right; simpl; tauto).
    reflexivity.
Qed.

(** X3: a DOCX file without paragraphs, or with empty paragraphs only,
    matches no skill: the score is 0.0, all eleven skills are missing
    and all four advisories are given. *)
Theorem blank_document_scores_zero (w : World) (docx_path : string)
  (paragraphs : list string) (log : list event) :
  docx_paragraphs w docx_path = Ok paragraphs ->
  (forall p, In p paragraphs -> p = "") ->
  exists text log1 r log2,
    extract_text_from_docx w docx_path log = (Ok text, log1) /\
    analyze_resume w text log1 = (Ok r, log2) /\
    skills_matched r = [] /\
    missing_skills r = REQUIRED_SKILLS /\
    match_percentage r = 0%float /\
    recommendations r
    = [ADVICE_PROJECTS; ADVICE_EXPERIENCE; ADVICE_EDUCATION; ADVICE_CERTIFICATION].
Proof.
  intros Hdoc Hblank.
  assert (Hnone : forall kw, In kw KEYWORDS ->
            Str.contains kw (Str.lower (Str.join newline paragraphs)) = false).
  { intros kw Hkw. rewrite (docx_keyword_by_paragraph _ _ Hkw).
    destruct (keyword_shape kw Hkw) as [_ Hne].
    clear Hdoc. induction paragraphs as [|p ps IH]; [reflexivity|].
    cbn [existsb]. rewrite IH by (intros q Hq; apply Hblank; now right).
    rewrite (Hblank p (or_introl eq_refl)).
    destruct kw; [now destruct Hne | reflexivity]. }
  rewrite extract_text_from_docx_run. unfold docx_text_or_error. rewrite Hdoc.
  do 4 eexists. split; [reflexivity|].
  rewrite analyze_resume_run. split; [reflexivity|].
  cbn [skills_matched missing_skills match_percentage recommendations].
  assert (Hfound :
    filter (fun skill => Str.contains (Str.lower skill)
                           (Str.lower (Str.join newline paragraphs))) REQUIRED_SKILLS = []).
  { rewrite (filter_ext_in _ (fun _ => false)); [reflexivity|].
    intros skill Hin. apply Hnone. now apply skill_keyword. }
  assert (Hmissing :
    filter (fun skill => negb (Str.contains (Str.lower skill)
                                 (Str.lower (Str.join newline paragraphs)))) REQUIRED_SKILLS
    = REQUIRED_SKILLS).
  { rewrite (filter_ext_in _ (fun _ => true)); [reflexivity|].
    intros skill Hin. rewrite Hnone; [reflexivity | now apply skill_keyword]. }
  rewrite Hfound, Hmissing, advisories_concat.
  rewrite !Hnone by (unfold KEYWORDS; apply in_or_app; right; simpl; tauto).
  repeat split.
Qed.

(** X4: when extraction fails, the score is that of the exception
    message alone: the fixed head of the error string, for PDF or for
    DOCX, adds no skill and takes no advisory away. *)
Theorem error_text_scored_on_message (w : World) (prefix msg : string)
  (log : list event) :
  In prefix ["Error extracting text from PDF: "; "Error extracting text from DOCX: "] ->
  exists r log1 r' log2,
    analyze_resume w (prefix ++ msg) log = (Ok r, log1) /\
    analyze_resume w msg log = (Ok r', log2) /\
    skills_matched r = skills_matched r' /\
    missing_skills r = missing_skills r' /\
    match_percentage r = match_percentage r' /\
    recommendations r = recommendations r'.
Proof.
  intros Hprefix. rewrite !analyze_resume_run. do 4 eexists.
  split; [reflexivity|]. split; [reflexivity|].
  cbn [skills_matched missing_skills match_percentage recommendations].
  assert (Hfound :
    filter (fun skill => Str.contains (Str.lower skill) (Str.lower (prefix ++ msg)))
      REQUIRED_SKILLS
    = filter (fun skill => Str.contains (Str.lower skill) (Str.lower msg)) REQUIRED_SKILLS).
  { apply filter_ext_in. intros skill Hin.
    apply (error_prefix_adds_nothing _ _ _ Hprefix (skill_keyword _ Hin)). }
  rewrite Hfound. repeat split.
  - apply filter_ext_in. intros skill Hin.
    now rewrite (error_prefix_adds_nothing _ _ _ Hprefix (skill_keyword _ Hin)).
  - rewrite !advisories_concat.
    rewrite !(error_prefix_adds_nothing prefix _ msg Hprefix)
      by (unfold KEYWORDS; apply in_or_app; right; simpl; tauto).
    reflexivity.
Qed.

(** ** More properties of the analyzer *)

(** X5: the analysis does not see the case of the letters: two texts
    with the same lowercased form get the same matched and missing
    skills, the same percentage and the same advisories. *)
Theorem analysis_ignores_case (w : World) (T T' : string) (log : list event) :
  Str.lower T = Str.lower T' ->
  exists r log1 r' log2,
    analyze_resume w T log = (Ok r, log1) /\
    analyze_resume w T' log = (Ok r', log2) /\
    skills_matched r = skills_matched r' /\
    missing_skills r = missing_skills r' /\
    match_percentage r = match_percentage r' /\
    recommendations r = recommendations r'.
Proof.
  intros H. rewrite !analyze_resume_run. do 4 eexists.
  split; [reflexivity|]. split; [reflexivity|].
  cbn [skills_matched missing_skills match_percentage recommendations].
  unfold advisories. rewrite H. repeat split.
Qed.

(** X6: text added before or after a resume never lowers its score:
    every skill matched stays matched, in the same order, no skill
    becomes missing, the percentage does not go down and no advisory is
    added. *)
Theorem more_text_never_scores_less (w : World) (before T after : string)
  (log : list event) :
  exists r log1 r' log2,
    analyze_resume w T log = (Ok r, log1) /\
    analyze_resume w (before ++ T ++ after) log = (Ok r', log2) /\
    Subseq (skills_matched r) (skills_matched r') /\
    Subseq (missing_skills r') (missing_skills r) /\
    PrimFloat.leb (match_percentage r) (match_percentage r') = true /\
    Subseq (recommendations r') (recommendations r).
Proof.
  assert (Hup : forall kw, Str.contains kw (Str.lower T) = true ->
                           Str.contains kw (Str.lower (before ++ T ++ after)) = true).
  { intros kw H. rewrite !lower_append. now apply contains_extend. }
  rewrite !analyze_resume_run. do 4 eexists.
  split; [reflexivity|]. split; [reflexivity|].
  cbn [skills_matched missing_skills match_percentage recommendations].
  assert (Hsub : Subseq
    (filter (fun skill => Str.contains (Str.lower skill) (Str.lower T)) REQUIRED_SKILLS)
    (filter (fun skill => Str.contains (Str.lower skill) (Str.lower (before ++ T ++ after)))
       REQUIRED_SKILLS))
    by (apply filter_Subseq_impl; intros skill _; apply Hup).
  split; [exact Hsub|]. split; [|split].
  - apply filter_Subseq_impl. intros skill _ H.
    destruct (Str.contains (Str.lower skill) (Str.lower T)) eqn:E; [|reflexivity].
    rewrite (Hup _ E) in H. discriminate.
  - apply Subseq_length in Hsub.
    set (p := fun skill => Str.contains (Str.lower skill) (Str.lower T)) in *.
    set (q := fun skill =>
                Str.contains (Str.lower skill) (Str.lower (before ++ T ++ after))) in *.
    destruct (percentage_order _ _ (found_at_most_11 p) (found_at_most_11 q)) as [Hle _].
    rewrite Hle. apply Nat.leb_le. exact Hsub.
  - rewrite !advisories_concat.
    pose proof (Hup "projects") as H1. pose proof (Hup "experience") as H2.
    pose proof (Hup "education") as H3. pose proof (Hup "certification") as H4.
    destruct (Str.contains "projects" (Str.lower T));
      [rewrite (H1 eq_refl) | destruct (Str.contains "projects" _)];
    (destruct (Str.contains "experience" (Str.lower T));
      [rewrite (H2 eq_refl) | destruct (Str.contains "experience" _)]);
    (destruct (Str.contains "education" (Str.lower T));
      [rewrite (H3 eq_refl) | destruct (Str.contains "education" _)]);
    (destruct (Str.contains "certification" (Str.lower T));
      [rewrite (H4 eq_refl) | destruct (Str.contains "certification" _)]);
    cbn [app]; auto 10.
Qed.

(** X7: the percentage lies between 0 and 100; it is 0 exactly when no
    skill is matched and 100 exactly when no skill is missing. *)
Theorem match_percentage_range (w : World) (T : string) (log : list event) :
  exists r log',
    analyze_resume w T log = (Ok r, log') /\
    PrimFloat.leb 0 (match_percentage r) = true /\
    PrimFloat.leb (match_percentage r) 100 = true /\
    (PrimFloat.eqb (match_percentage r) 0 = true <-> skills_matched r = []) /\
    (PrimFloat.eqb (match_percentage r) 100 = true <-> missing_skills r = []).
Proof.
  rewrite analyze_resume_run. do 2 eexists. split; [reflexivity|].
  cbn [skills_matched missing_skills match_percentage].
  set (p := fun skill => Str.contains (Str.lower skill) (Str.lower T)).
  pose proof (found_at_most_11 p) as Hk.
  pose proof (Permutation_length (filter_split_Permutation p REQUIRED_SKILLS)) as Hsum.
  rewrite length_app in Hsum. change (List.length REQUIRED_SKILLS) with 11 in Hsum.
  fold p in Hsum.
  destruct (percentage_order 0 _ (Nat.le_0_l 11) Hk) as [Hlo _].
  destruct (percentage_order _ 11 Hk (le_n 11)) as [Hhi Heq11].
  destruct (percentage_order _ 0 Hk (Nat.le_0_l 11)) as [_ Heq0].
  change (PyFloat.round2 (percentage_of 0)) with 0%float in Hlo, Heq0.
  change (PyFloat.round2 (percentage_of 11)) with 100%float in Hhi, Heq11.
  split; [now rewrite Hlo|]. split; [rewrite Hhi; now apply Nat.leb_le|].
  rewrite Heq0, Heq11, !Nat.eqb_eq. split.
  - split; [now apply length_zero_iff_nil | now intros ->].
  - rewrite <- length_zero_iff_nil.
    change (fun skill => negb (Str.contains (Str.lower skill) (Str.lower T)))
      with (fun skill => negb (p skill)).
    lia.
Qed.

(** X8: the percentage orders resumes as the number of matched skills
    does: of two analyses the one with more matched skills has the
    higher percentage, and equal percentages mean equal numbers. *)
Theorem match_percentage_orders_as_count (w1 w2 : World) (T1 T2 : string)
  (log1 log2 : list event) :
  exists r1 log1' r2 log2',
    analyze_resume w1 T1 log1 = (Ok r1, log1') /\
    analyze_resume w2 T2 log2 = (Ok r2, log2') /\
    PrimFloat.leb (match_percentage r1) (match_percentage r2)
    = (List.length (skills_matched r1) <=? List.length (skills_matched r2))%nat /\
    PrimFloat.eqb (match_percentage r1) (match_percentage r2)
    = (List.length (skills_matched r1) =? List.length (skills_matched r2))%nat.
Proof.
  rewrite !analyze_resume_run. do 4 eexists.
  split; [reflexivity|]. split; [reflexivity|].
  cbn [skills_matched match_percentage].
  apply percentage_order; apply found_at_most_11.
Qed.

(** ** More properties of the route *)




Lemma analyze_resume_result (w : World) (text : string) (log log' : list event)
  (r : AnalysisResult) :
  analyze_resume w text log = (Ok r, log') -> r = analysis_of w text.
Proof.
  rewrite analyze_resume_run. intros H.
  apply (f_equal fst) in H. cbn [fst] in H.
  apply (f_equal (fun x => match x with Ok a => a | Raised _ => r end)) in H.
  cbv beta iota in H. symmetry. exact H.
Qed.

(** X10: a failed extraction and a failed model call together still
    give a report: for a saved PDF upload whose parsing raises [e] and
    whose model call raises [e'], the route returns the rendered page;
    the text sent to the model and scored is the extraction error, its
    matched skills are those that occur in the message of [e], and the
    AI text of the page is "AI Error: " followed by the message of
    [e']. *)
Theorem failures_still_give_a_report (w : World) (request : Request)
  (file : FileStorage) (e e' : exn) (log : list event) :
  upload_of request = Some file ->
  extension_of (filename file) = "pdf" ->
  file_save w (saved_path w (filename file)) = Ok tt ->
  pdfminer_extract_text w (saved_path w (filename file)) = Raised e ->
  generate_content_text w "gemini-2.0-flash"
    (suggestion_prompt ("Error extracting text from PDF: " ++ str_of_exn e)) = Raised e' ->
  exists r,
    analyze w request log =
    (Ok (Text (render_template_string w r)),
     (log ++ [FileSave (saved_path w (filename file));
              PdfExtractText (saved_path w (filename file));
              GenerateContent "gemini-2.0-flash"
                (suggestion_prompt ("Error extracting text from PDF: " ++ str_of_exn e))])%list) /\
    skills_matched r
    = filter (fun skill => occurs_ci skill (str_of_exn e)) REQUIRED_SKILLS /\
    ai_suggestions r = "AI Error: " ++ str_of_exn e'.
Proof.
  intros Hup Hext Hsave Hpdf Hai.
  destruct (analyze_with_upload w request file log Hup Hsave) as [r [Hr Hrun]].
  cbv zeta in Hr, Hrun. rewrite Hext in Hr, Hrun.
  unfold extracted_text, extraction_event in Hr, Hrun.
  change (String.eqb "pdf" "pdf") with true in Hr, Hrun. cbv iota in Hr, Hrun.
  unfold pdf_text_or_error in Hr, Hrun. rewrite Hpdf in Hr, Hrun.
  exists r. split; [exact Hrun|].
  rewrite (analyze_resume_result _ _ _ _ _ Hr). unfold analysis_of.
  cbn [skills_matched ai_suggestions]. split.
  - apply filter_ext_in. intros skill Hin.
    apply (error_prefix_adds_nothing "Error extracting text from PDF: " (Str.lower skill)).
    + now left.
    + now apply skill_keyword.
  - unfold suggestions_or_error. now rewrite Hai.
Qed.



(** ** Properties of the markup of the AI text *)

Section MarkupFacts.

Import Str Markup.

Lemma has_char_append (c : ascii) (a b : string) :
  has_char c (a ++ b) = has_char c a || has_char c b.
Proof.
  induction a as [|x a IH]; simpl; [reflexivity|].
  now rewrite IH, orb_assoc.
Qed.

Lemma replace_char_append (old : ascii) (new a b : string) :
  replace_char old new (a ++ b) = replace_char old new a ++ replace_char old new b.
Proof.
  induction a as [|x a IH]; simpl; [reflexivity|].
  destruct (Ascii.eqb x old); simpl; rewrite IH; [now rewrite append_assoc3 | reflexivity].
Qed.

(** The replaced character is gone when the replacement has none. *)
Lemma replace_char_removes (old : ascii) (new s : string) :
  has_char old new = false -> has_char old (replace_char old new s) = false.
Proof.
  intros H. induction s as [|x s IH]; simpl; [reflexivity|].
  destruct (Ascii.eqb x old) eqn:E.
  - now rewrite has_char_append, H, IH.
  - simpl. now rewrite E, IH.
Qed.

(** Another character is neither brought in nor taken out. *)
Lemma replace_char_keeps (c old : ascii) (new s : string) :
  Ascii.eqb old c = false -> has_char c new = false ->
  has_char c (replace_char old new s) = has_char c s.
Proof.
  intros Hc H. induction s as [|x s IH]; simpl; [reflexivity|].
  destruct (Ascii.eqb x old) eqn:E.
  - apply Ascii.eqb_eq in E as ->. now rewrite has_char_append, H, IH, Hc.
  - simpl. now rewrite IH.
Qed.

(** Nothing to replace, nothing changed. *)
Lemma replace_char_absent (old : ascii) (new s : string) :
  has_char old s = false -> replace_char old new s = s.
Proof.
  induction s as [|x s IH]; simpl; [reflexivity|].
  intros H. apply orb_false_iff in H as [Hx Hs].
  now rewrite Hx, (IH Hs).
Qed.

End MarkupFacts.

(** X13: in the report the AI text has no asterisk and no newline
    left, whatever the model answered: each one has become a bullet
    entity or a line break. *)
Theorem markup_leaves_no_star_no_newline (ai_suggestions : string) :
  Str.has_char "*" (Markup.suggestions_markup ai_suggestions) = false /\
  Str.has_char "010" (Markup.suggestions_markup ai_suggestions) = false.
Proof.
  unfold Markup.suggestions_markup. split.
  - rewrite replace_char_keeps by reflexivity.
    now apply replace_char_removes.
  - now apply replace_char_removes.
Qed.

(** X14: an AI text without asterisk and without newline goes into the
    page exactly as the model wrote it: nothing else is replaced, and
    HTML in it is not escaped. *)
Theorem markup_passes_other_text (ai_suggestions : string) :
  Str.has_char "*" ai_suggestions = false ->
  Str.has_char "010" ai_suggestions = false ->
  Markup.suggestions_markup ai_suggestions = ai_suggestions.
Proof.
  intros Hstar Hnl. unfold Markup.suggestions_markup.
  now rewrite (replace_char_absent "*" _ _ Hstar), (replace_char_absent "010" _ _ Hnl).
Qed.

(** X15: the markup works piece by piece and the order of its two
    replacements does not matter: the markup of a concatenation is the
    concatenation of the markups, and replacing newlines first gives the
    same string. *)
Theorem markup_composes (a b : string) :
  Markup.suggestions_markup (a ++ b)
  = Markup.suggestions_markup a ++ Markup.suggestions_markup b /\
  Markup.suggestions_markup a
  = Markup.replace_char "*" Markup.BULLET (Markup.replace_char "010" Markup.BR a).
Proof.
  unfold Markup.suggestions_markup. split.
  - now rewrite !replace_char_append.
  - induction a as [|x a IH]; [reflexivity|].
    cbn [Markup.replace_char].
    destruct (Ascii.eqb x "*") eqn:Es.
    + apply Ascii.eqb_eq in Es as ->.
      change (Ascii.eqb "*" "010") with false. cbv iota.
      cbn [Markup.replace_char]. change (Ascii.eqb "*" "*") with true. cbv iota.
      rewrite replace_char_append, IH. reflexivity.
    + cbn [Markup.replace_char].
      destruct (Ascii.eqb x "010") eqn:En.
      * apply Ascii.eqb_eq in En as ->.
        rewrite replace_char_append, IH. reflexivity.
      * cbn [Markup.replace_char]. now rewrite Es, IH.
Qed.

(** ** Properties of the email report *)

Lemma py_not_true (x : option string) :
  Mail.py_not x = true <-> x = None \/ x = Some "".
Proof.
  destruct x as [s|]; simpl.
  - rewrite String.eqb_eq. split.
    + intros ->. now right.
    + intros [H|H]; [discriminate | now injection H].
  - split; [now left | reflexivity].
Qed.

Lemma sent_messages_app (a b : list Mail.output) :
  Mail.sent_messages (a ++ b)%list
  = (Mail.sent_messages a ++ Mail.sent_messages b)%list.
Proof. apply flat_map_app. Qed.

(** X16: without a username or without a password, unset or empty,
    [send_email] hands nothing to the mail transport and does not raise:
    it prints the line "Error: Email configuration missing. Cannot send
    email." and returns; the start-up check of the same two settings
    prints its warning for the same configurations. *)
Theorem send_email_needs_credentials (cfg : Mail.Config) (env : Mail.Env)
  (recipient : string) (analysis : AnalysisResult) (out : list Mail.output) :
  Mail.MAIL_USERNAME cfg = None \/ Mail.MAIL_USERNAME cfg = Some "" \/
  Mail.MAIL_PASSWORD cfg = None \/ Mail.MAIL_PASSWORD cfg = Some "" ->
  Mail.send_email cfg env recipient analysis out
  = (Ok tt,
     (out ++ [Mail.Printed "Error: Email configuration missing. Cannot send email."])%list) /\
  Mail.sent_messages (snd (Mail.send_email cfg env recipient analysis out))
  = Mail.sent_messages out /\
  Mail.startup_warning cfg
  = [Mail.Printed "Warning: Email credentials not set. Email functionality may not work."].
Proof.
  intros H.
  assert (Hguard : Mail.py_not (Mail.MAIL_USERNAME cfg)
                   || Mail.py_not (Mail.MAIL_PASSWORD cfg) = true).
  { apply orb_true_iff. rewrite !py_not_true. tauto. }
  unfold Mail.send_email, Mail.startup_warning. rewrite Hguard. cbn [snd].
  split; [reflexivity|]. split; [|reflexivity].
  rewrite sent_messages_app. cbn. apply app_nil_r.
Qed.

(** X17: with a non-empty username and a non-empty password,
    [send_email] hands exactly one message to the transport: its subject
    is "Your Resume Analysis Report", its sender the username, its only
    recipient the address given; the call ends as the transport ends, so
    an exception of the transport is not caught; nothing is printed, and
    the start-up check printed no warning. *)
Theorem send_email_sends_one_message (cfg : Mail.Config) (env : Mail.Env)
  (user password recipient : string) (analysis : AnalysisResult)
  (out : list Mail.output) :
  Mail.MAIL_USERNAME cfg = Some user -> user <> "" ->
  Mail.MAIL_PASSWORD cfg = Some password -> password <> "" ->
  exists msg,
    Mail.send_email cfg env recipient analysis out
    = (Mail.mail_send env msg, (out ++ [Mail.Sent msg])%list) /\
    Mail.subject msg = "Your Resume Analysis Report" /\
    Mail.sender msg = Some user /\
    Mail.recipients msg = [recipient] /\
    Mail.msg_body msg = Mail.report_body env analysis /\
    Mail.sent_messages (snd (Mail.send_email cfg env recipient analysis out))
    = (Mail.sent_messages out ++ [msg])%list /\
    Mail.startup_warning cfg = [].
Proof.
  intros Hu Hune Hp Hpne.
  assert (Hguard : Mail.py_not (Mail.MAIL_USERNAME cfg)
                   || Mail.py_not (Mail.MAIL_PASSWORD cfg) = false).
  { rewrite Hu, Hp. simpl. apply orb_false_iff.
    split; now apply String.eqb_neq. }
  unfold Mail.send_email, Mail.startup_warning. rewrite Hguard, Hu. cbn [snd].
  eexists. split; [reflexivity|]. cbn [Mail.subject Mail.sender Mail.recipients Mail.msg_body].
  repeat split. now rewrite sent_messages_app.
Qed.

(** ** The further properties at work on concrete inputs *)

(** X2 on a document of two paragraphs: "AI" is found inside
    "Maintained", the Education advisory is not given. *)
Lemma docx_scored_by_paragraph_witness :
  docx_paragraphs world_ok "temp/cv.docx" = Ok ["Maintained servers"; "Education"] /\
  exists text log1 r log2,
    extract_text_from_docx world_ok "temp/cv.docx" [] = (Ok text, log1) /\
    analyze_resume world_ok text log1 = (Ok r, log2) /\
    skills_matched r = ["AI"] /\
    recommendations r = [ADVICE_PROJECTS; ADVICE_EXPERIENCE; ADVICE_CERTIFICATION].
Proof.
  split; [reflexivity|].
  destruct (docx_scored_by_paragraph world_ok "temp/cv.docx"
              ["Maintained servers"; "Education"] [] eq_refl)
    as [text [log1 [r [log2 [H1 [H2 [H3 H4]]]]]]].
  exists text, log1, r, log2. repeat split; assumption.
Defined.

(** X3 on a document of three empty paragraphs. *)
Lemma blank_document_scores_zero_witness :
  docx_paragraphs world_blank_docx "temp/cv.docx" = Ok [""; ""; ""] /\
  exists text log1 r log2,
    extract_text_from_docx world_blank_docx "temp/cv.docx" [] = (Ok text, log1) /\
    analyze_resume world_blank_docx text log1 = (Ok r, log2) /\
    skills_matched r = [] /\
    missing_skills r = REQUIRED_SKILLS /\
    match_percentage r = 0%float /\
    recommendations r
    = [ADVICE_PROJECTS; ADVICE_EXPERIENCE; ADVICE_EDUCATION; ADVICE_CERTIFICATION].
Proof.
  split; [reflexivity|].
  apply (blank_document_scores_zero world_blank_docx "temp/cv.docx" [""; ""; ""] []).
  - reflexivity.
  - intros p H. simpl in H. repeat destruct H as [<-|H]; try reflexivity. contradiction.
Defined.

(** X4 on a parser message that names a skill. *)
Lemma error_text_scored_on_message_witness :
  exists r log1 r' log2,
    analyze_resume world_ok ("Error extracting text from PDF: " ++ "Flask upload is empty") []
    = (Ok r, log1) /\
    analyze_resume world_ok "Flask upload is empty" [] = (Ok r', log2) /\
    skills_matched r = skills_matched r' /\
    missing_skills r = missing_skills r' /\
    match_percentage r = match_percentage r' /\
    recommendations r = recommendations r'.
Proof.
  apply (error_text_scored_on_message world_ok "Error extracting text from PDF: "
           "Flask upload is empty" []).
  left. reflexivity.
Defined.

(** X5 on a text in capitals and the same text in small letters. *)
Lemma analysis_ignores_case_witness :
  Str.lower "PYTHON AND SQL" = Str.lower "python and sql" /\
  exists r log1 r' log2,
    analyze_resume world_ok "PYTHON AND SQL" [] = (Ok r, log1) /\
    analyze_resume world_ok "python and sql" [] = (Ok r', log2) /\
    skills_matched r = skills_matched r' /\
    missing_skills r = missing_skills r' /\
    match_percentage r = match_percentage r' /\
    recommendations r = recommendations r'.
Proof.
  split; [reflexivity|].
  apply (analysis_ignores_case world_ok "PYTHON AND SQL" "python and sql" []).
  reflexivity.
Defined.


(** X10 on a PDF upload that the parser rejects, with the model out of
    quota. *)
Lemma failures_still_give_a_report_witness :
  exists r,
    fst (analyze world_parser_and_model_fail (upload "cv.PDF") [])
    = Ok (Text (render_template_string world_parser_and_model_fail r)) /\
    skills_matched r = [] /\
    ai_suggestions r = "AI Error: 429 quota exceeded".
Proof.
  destruct (failures_still_give_a_report world_parser_and_model_fail (upload "cv.PDF")
              {| filename := "cv.PDF"; stream := "%PDF-1.4" |}
              (Exn "No /Root object! - Is this really a PDF?")
              (Exn "429 quota exceeded") []
              eq_refl eq_refl eq_refl eq_refl eq_refl) as [r [Hrun [Hskills Hai]]].
  exists r. split; [now rewrite Hrun|]. split; [exact Hskills | exact Hai].
Defined.


(** X14 on an answer that carries HTML. *)
Lemma markup_passes_other_text_witness :
  Markup.suggestions_markup "<b>Add a projects section</b>"
  = "<b>Add a projects section</b>".
Proof.
  apply (markup_passes_other_text "<b>Add a projects section</b>"); reflexivity.
Defined.

(** X16 on settings without a password. *)
Lemma send_email_needs_credentials_witness :
  Mail.send_email mail_unset mail_env_down "ada@example.org" report_example []
  = (Ok tt, [Mail.Printed "Error: Email configuration missing. Cannot send email."]) /\
  Mail.sent_messages
    (snd (Mail.send_email mail_unset mail_env_down "ada@example.org" report_example []))
  = [] /\
  Mail.startup_warning mail_unset
  = [Mail.Printed "Warning: Email credentials not set. Email functionality may not work."].
Proof.
  apply (send_email_needs_credentials mail_unset mail_env_down "ada@example.org"
           report_example []).
  right. right. left. reflexivity.
Defined.

(** X17 on full settings with the transport down: the one message is
    handed over and the exception of the transport comes out. *)
Lemma send_email_sends_one_message_witness :
  exists msg,
    Mail.send_email mail_set mail_env_down "ada@example.org" report_example []
    = (Raised (Exn "Connection refused"), [Mail.Sent msg]) /\
    Mail.sender msg = Some "reports@example.org" /\
    Mail.recipients msg = ["ada@example.org"].
Proof.
  destruct (send_email_sends_one_message mail_set mail_env_down
              "reports@example.org" "app-password" "ada@example.org" report_example []
              eq_refl ltac:(discriminate) eq_refl ltac:(discriminate))
    as [msg [Hrun [_ [Hsender [Hrcpt _]]]]].
  exists msg. split; [exact Hrun|]. split; [exact Hsender | exact Hrcpt].
Defined.
